(** * The catalogue / order API views of [backend/api/views.py]

    A shallow embedding of the three view sets with custom code
    ([ProductViewSet], [OrderViewSet], [OrderItemViewSet]) over an explicit
    database state, and the properties of the stock update, the order status
    update and the two visibility filters. *)

From Stdlib Require Import ZArith String PrimFloat.
From stdpp Require Import gmap strings fin_maps.

Local Open Scope string_scope.
Set Warnings "-register-all".

(** ** Python values

    [request.data] is the parsed request body: with the JSON parser its
    values are arbitrary JSON values, with the form parsers they are strings. *)

Inductive pyval : Type :=
| VNone
| VBool (b : bool)
| VInt (z : Z)
| VFloat (f : float)
| VStr (s : string)
| VList (l : list pyval)
| VDict (d : list (string * pyval)).

(** [x is None] *)
Definition is_none (v : pyval) : bool :=
  match v with
  | VNone => true
  | _ => false
  end.

(** Truth value testing, as [if x] and [x and y] do it: [None], [False],
    numeric zero and empty strings and containers are false. *)
Definition truthy (v : pyval) : bool :=
  match v with
  | VNone => false
  | VBool b => b
  | VInt z => negb (z =? 0)%Z
  | VFloat f => negb (PrimFloat.eqb f 0%float)
  | VStr s => negb (String.eqb s "")
  | VList l => match l with [] => false | _ :: _ => true end
  | VDict d => match d with [] => false | _ :: _ => true end
  end.

(** ** Exceptions and outcomes *)

Inductive exn : Type :=
| Http404
| AssertionError
| TypeError (msg : string).

Inductive outcome (A : Type) : Type :=
| Return (a : A)
| Raise (e : exn).
Arguments Return {A} a.
Arguments Raise {A} e.

(** [d.get(key, default)] on a dict with string keys. *)
Definition dict_get (d : gmap string pyval) (key : string) (dflt : pyval) : pyval :=
  match d !! key with
  | Some v => v
  | None => dflt
  end.

(** [dict(pairs)]: later pairs overwrite earlier ones. *)
Definition py_dict (pairs : list (string * string)) : gmap string string :=
  foldl (λ d kv, <[kv.1 := kv.2]> d) ∅ pairs.

(** [hash(x)] is defined: lists and dicts are the unhashable values. *)
Definition hashable (v : pyval) : bool :=
  match v with
  | VList _ | VDict _ => false
  | VNone | VBool _ | VInt _ | VFloat _ | VStr _ => true
  end.

(** [x in d] for a dict [d] with string keys. The key is hashed first:
    lists and dicts are unhashable and raise [TypeError]; the hashable
    values that are not strings compare unequal to every key. *)
Definition py_in (x : pyval) (d : gmap string string) : outcome bool :=
  match x with
  | VStr s => Return (bool_decide (is_Some (d !! s)))
  | VList _ => Raise (TypeError "unhashable type: 'list'")
  | VDict _ => Raise (TypeError "unhashable type: 'dict'")
  | VNone | VBool _ | VInt _ | VFloat _ => Return false
  end.

(** ** Models

    Modelled from the spec: the model classes [Product], [Order] and
    [OrderItem] of [models.py], which is not among the sources. A table maps
    primary keys to rows; a row keeps the columns the views read or write
    (the others are carried along unchanged by [save]). An attribute of an
    instance in memory holds whatever Python value was assigned to it. *)

Record User : Type := { user_pk : Z; is_staff : bool }.

Record Product : Type := { product_category : Z; product_stock : pyval }.

Record Order : Type := { order_user : Z; order_status : pyval }.

Record OrderItem : Type := { item_order_id : Z; item_product_id : Z }.

(** A model instance in memory: the row and the primary key it was loaded
    under. *)
Record instance (A : Type) : Type := Instance { pk : Z; fields : A }.
Arguments Instance {A} pk fields.
Arguments pk {A} i.
Arguments fields {A} i.

Record DB : Type := {
  products : gmap Z Product;
  orders : gmap Z Order;
  order_items : gmap Z OrderItem
}.

(** [product.stock = v] and [order.status = v] *)
Definition set_stock (product : instance Product) (v : pyval) : instance Product :=
  Instance (pk product)
    {| product_category := product_category (fields product); product_stock := v |}.

Definition set_status (order : instance Order) (v : pyval) : instance Order :=
  Instance (pk order)
    {| order_user := order_user (fields order); order_status := v |}.

(** ** Computations over the database that may raise *)

Definition M (A : Type) : Type := DB → outcome A * DB.

Definition ret {A} (a : A) : M A := λ db, (Return a, db).

Definition raise {A} (e : exn) : M A := λ db, (Raise e, db).

Definition bind {A B} (m : M A) (k : A → M B) : M B :=
  λ db, match m db with
        | (Return a, db') => k a db'
        | (Raise e, db') => (Raise e, db')
        end.

Definition lift {A} (o : outcome A) : M A := λ db, (o, db).

Notation "'let*' x := m 'in' k" := (bind m (λ x, k))
  (at level 10, x name, m at level 100, k at level 200).

(** [Model.objects.all()] *)
Definition all_products : M (gmap Z Product) := λ db, (Return (products db), db).
Definition all_orders : M (gmap Z Order) := λ db, (Return (orders db), db).
Definition all_order_items : M (gmap Z OrderItem) := λ db, (Return (order_items db), db).

(** [instance.save()]: the row is written under the instance's primary key.
    Modelled from the spec: the storage collaborator persists the record as
    given; column coercion and database constraints are its own. *)
Definition save_product (product : instance Product) : M unit :=
  λ db, (Return tt,
         {| products := <[pk product := fields product]> (products db);
            orders := orders db;
            order_items := order_items db |}).

Definition save_order (order : instance Order) : M unit :=
  λ db, (Return tt,
         {| products := products db;
            orders := <[pk order := fields order]> (orders db);
            order_items := order_items db |}).

(** ** Requests, responses and the generic view *)

(** [request.user] is an authenticated user: the permission classes of the
    three view sets have let the request through before an action or a
    filter runs. [request.data] is the parsed body; the values of
    [request.query_params] and of the URL keyword arguments are taken as the
    keys they denote. *)
Record Request : Type := {
  user : User;
  data : gmap string pyval;
  query_params : gmap string Z
}.

(** A view set instance while it handles one request: [self.request] and
    the URL keyword arguments [self.kwargs]. The dispatcher passes
    [self.request] as the action's [request] and [self.kwargs['pk']] as its
    [pk]. *)
Record View : Type := {
  request : Request;
  kwargs : gmap string Z
}.

Definition HTTP_200_OK : Z := 200.
Definition HTTP_400_BAD_REQUEST : Z := 400.

Record Response : Type := {
  response_data : gmap string string;
  status_code : Z
}.

(** [Response(data, status=None)] *)
Definition mkResponse (d : gmap string string) (status : option Z) : Response :=
  {| response_data := d;
     status_code := match status with Some c => c | None => HTTP_200_OK end |}.

(** [GenericAPIView.get_object] over the view's queryset: the row whose
    primary key is [self.kwargs['pk']], or [Http404]. *)
Definition get_object_from {A} (self : View) (queryset : gmap Z A) : M (instance A) :=
  match kwargs self !! "pk" with
  | None => raise AssertionError
  | Some k =>
      match queryset !! k with
      | Some r => ret (Instance k r)
      | None => raise Http404
      end
  end.

(** ** [ProductViewSet] *)

Module ProductViewSet.

Definition get_queryset (self : View) : M (gmap Z Product) :=
  let* queryset := all_products in
  let category := query_params (request self) !! "category" in
  match category with
  | Some c => ret (filter (λ kv, product_category kv.2 = c) queryset)
  | None => ret queryset
  end.

Definition get_object (self : View) : M (instance Product) :=
  let* queryset := get_queryset self in
  get_object_from self queryset.

Definition update_stock (self : View) : M Response :=
  let* product := get_object self in
  let new_stock := dict_get (data (request self)) "stock" VNone in
  if negb (is_none new_stock) then
    let product := set_stock product new_stock in
    let* _ := save_product product in
    ret (mkResponse {[ "status" := "stock updated" ]} None)
  else
    ret (mkResponse {[ "error" := "stock value not provided" ]}
           (Some HTTP_400_BAD_REQUEST)).

End ProductViewSet.

(** ** [OrderViewSet] *)

Module OrderViewSet.

Definition get_queryset (self : View) : M (gmap Z Order) :=
  if is_staff (user (request self)) then all_orders
  else
    let* queryset := all_orders in
    ret (filter (λ kv, order_user kv.2 = user_pk (user (request self))) queryset).

Definition get_object (self : View) : M (instance Order) :=
  let* queryset := get_queryset self in
  get_object_from self queryset.

Section Choices.

(** [Order.STATUS_CHOICES]: the configured (value, label) pairs;
    declared in [models.py]. *)
Variable STATUS_CHOICES : list (string * string).

(** [new_status and new_status in dict(Order.STATUS_CHOICES)], as the
    [if] tests it. *)
Definition status_accepted (new_status : pyval) : outcome bool :=
  if truthy new_status then py_in new_status (py_dict STATUS_CHOICES)
  else Return false.

Definition update_status (self : View) : M Response :=
  let* order := get_object self in
  let new_status := dict_get (data (request self)) "status" VNone in
  let* accepted := lift (status_accepted new_status) in
  if accepted : bool then
    let order := set_status order new_status in
    let* _ := save_order order in
    ret (mkResponse {[ "status" := "order status updated" ]} None)
  else
    ret (mkResponse {[ "error" := "invalid status" ]}
           (Some HTTP_400_BAD_REQUEST)).

End Choices.

End OrderViewSet.

(** ** [OrderItemViewSet] *)

Module OrderItemViewSet.

Definition get_queryset (self : View) : M (gmap Z OrderItem) :=
  let order_id := kwargs self !! "order_pk" in
  match order_id with
  | Some i =>
      let* queryset := all_order_items in
      ret (filter (λ kv, item_order_id kv.2 = i) queryset)
  | None => ret ∅
  end.

(** The detail routes of the view set resolve their object through the
    queryset above. *)
Definition get_object (self : View) : M (instance OrderItem) :=
  let* queryset := get_queryset self in
  get_object_from self queryset.

End OrderItemViewSet.


(** ** What the interface promises, in its own words

    The payloads of the action table: a success signal carries a [status]
    message with the default code 200, a failure of kind [InvalidRequest]
    carries an [error] message with code 400. *)

Definition Success (msg : string) : Response :=
  {| response_data := {[ "status" := msg ]}; status_code := 200 |}.

Definition InvalidRequest (msg : string) : Response :=
  {| response_data := {[ "error" := msg ]}; status_code := 400 |}.

(** A requested status is acceptable when it is a non-empty string that is
    one of the configured status values. *)
Definition valid_status (choices : list (string * string)) (v : pyval) : Prop :=
  ∃ s, v = VStr s ∧ s ≠ "" ∧ s ∈ choices.*1.

(** The requested values of the two actions, as the views extract them. A
    key that is missing and a key bound to [None] are both the absent
    value. *)
Definition requested_stock (self : View) : pyval :=
  dict_get (data (request self)) "stock" VNone.

Definition requested_status (self : View) : pyval :=
  dict_get (data (request self)) "status" VNone.

(** ** Sample data *)

Module Sample.

(** Modelled from the spec: the five status values the data model lists
    for [Order.STATUS_CHOICES] ([models.py] is not among the sources). *)
Definition STATUS_CHOICES : list (string * string) :=
  [("pending", "Pending"); ("processing", "Processing"); ("shipped", "Shipped");
   ("delivered", "Delivered"); ("cancelled", "Cancelled")].

Definition alice : User := {| user_pk := 1; is_staff := false |}.
Definition bob : User := {| user_pk := 2; is_staff := false |}.
Definition carol : User := {| user_pk := 3; is_staff := true |}.

Definition product1 : Product := {| product_category := 4; product_stock := VInt 5 |}.
Definition order7 : Order := {| order_user := 1; order_status := VStr "delivered" |}.
Definition order8 : Order := {| order_user := 2; order_status := VStr "pending" |}.
Definition item1 : OrderItem := {| item_order_id := 7; item_product_id := 1 |}.
Definition item2 : OrderItem := {| item_order_id := 8; item_product_id := 1 |}.
Definition item3 : OrderItem := {| item_order_id := 7; item_product_id := 1 |}.

Definition db : DB :=
  {| products := {[ 1%Z := product1 ]};
     orders := {[ 7%Z := order7; 8%Z := order8 ]};
     order_items := {[ 1%Z := item1; 2%Z := item2; 3%Z := item3 ]} |}.

(** A detail request of [u] for the object [k] with the given body. *)
Definition detail (u : User) (k : Z) (body : gmap string pyval) : View :=
  {| request := {| user := u; data := body; query_params := ∅ |};
     kwargs := {[ "pk" := k ]} |}.


(** A detail request nested under the order [i]. *)
Definition nested_detail (u : User) (i k : Z) : View :=
  {| request := {| user := u; data := ∅; query_params := ∅ |};
     kwargs := {[ "order_pk" := i; "pk" := k ]} |}.

(** A list request of [u], optionally nested under an order. *)
Definition listing (u : User) (scope : option Z) : View :=
  {| request := {| user := u; data := ∅; query_params := ∅ |};
     kwargs := match scope with Some i => {[ "order_pk" := i ]} | None => ∅ end |}.

End Sample.


(** * Properties *)

(** ** Dictionaries and the status test *)

Lemma foldl_insert_lookup_is_Some (pairs : list (string * string)) :
  ∀ (d : gmap string string) (k : string),
    is_Some (foldl (λ d kv, <[kv.1 := kv.2]> d) d pairs !! k)
    ↔ is_Some (d !! k) ∨ k ∈ pairs.*1.
Proof.
  induction pairs as [|[k0 v0] pairs IH]; intros d k; simpl.
  - rewrite elem_of_nil. tauto.
  - rewrite IH, elem_of_cons, lookup_insert_is_Some. simpl.
    destruct (decide (k0 = k)) as [->|Hne]; [tauto|].
    split; [intros [[?|[_ ?]]|?]|intros [?|[?|?]]]; try tauto; congruence.
Qed.

Lemma py_dict_lookup_is_Some (pairs : list (string * string)) (k : string) :
  is_Some (py_dict pairs !! k) ↔ k ∈ pairs.*1.
Proof.
  unfold py_dict. rewrite foldl_insert_lookup_is_Some, lookup_empty.
  split; [intros [[? ?]|?]|]; [discriminate|tauto|tauto].
Qed.

Lemma truthy_str (s : string) : truthy (VStr s) = true ↔ s ≠ "".
Proof.
  simpl. destruct (String.eqb_spec s ""); simpl; split; congruence.
Qed.

(** The guard of [update_status] lets through exactly the valid values. *)
Lemma status_accepted_true (choices : list (string * string)) (v : pyval) :
  OrderViewSet.status_accepted choices v = Return true ↔ valid_status choices v.
Proof.
  unfold OrderViewSet.status_accepted, valid_status. split.
  - destruct (truthy v) eqn:Ht; [|discriminate].
    destruct v; simpl; try discriminate.
    intros [= Hin]. apply bool_decide_eq_true in Hin.
    exists s. split; [done|]. split; [by apply truthy_str|].
    by apply py_dict_lookup_is_Some.
  - intros (s & -> & Hne & Hin).
    apply truthy_str in Hne. rewrite Hne. simpl. f_equal.
    apply bool_decide_eq_true. by apply py_dict_lookup_is_Some.
Qed.

(** ** Running the two actions on a resolved object *)

Lemma update_stock_run (self : View) (db : DB) (product : instance Product) :
  ProductViewSet.get_object self db = (Return product, db) →
  ProductViewSet.update_stock self db =
    if is_none (requested_stock self)
    then (Return (InvalidRequest "stock value not provided"), db)
    else (Return (Success "stock updated"),
          {| products := <[pk product :=
                             {| product_category := product_category (fields product);
                                product_stock := requested_stock self |}]> (products db);
             orders := orders db;
             order_items := order_items db |}).
Proof.
  intros Hobj. unfold ProductViewSet.update_stock, bind. rewrite Hobj.
  fold (requested_stock self). by destruct (is_none (requested_stock self)).
Qed.

Lemma update_status_run (choices : list (string * string)) (self : View) (db : DB)
    (order : instance Order) :
  OrderViewSet.get_object self db = (Return order, db) →
  OrderViewSet.update_status choices self db =
    match OrderViewSet.status_accepted choices (requested_status self) with
    | Return true =>
        (Return (Success "order status updated"),
         {| products := products db;
            orders := <[pk order :=
                          {| order_user := order_user (fields order);
                             order_status := requested_status self |}]> (orders db);
            order_items := order_items db |})
    | Return false => (Return (InvalidRequest "invalid status"), db)
    | Raise e => (Raise e, db)
    end.
Proof.
  intros Hobj. unfold OrderViewSet.update_status, bind, lift. rewrite Hobj.
  fold (requested_status self).
  by destruct (OrderViewSet.status_accepted choices (requested_status self)) as [[]|].
Qed.

(** An object resolved by a detail request is a row of the table. *)
Lemma order_get_object_Some (self : View) (db : DB) (order : instance Order) :
  OrderViewSet.get_object self db = (Return order, db) →
  orders db !! pk order = Some (fields order).
Proof.
  unfold OrderViewSet.get_object, OrderViewSet.get_queryset, get_object_from,
    bind, all_orders, ret, raise.
  destruct (is_staff _); simpl; destruct (kwargs self !! "pk") as [k|]; try discriminate.
  - destruct (orders db !! k) eqn:Hk; [|discriminate]. by intros [= <-].
  - destruct (filter _ _ !! k) eqn:Hk; [|discriminate]. intros [= <-]. simpl.
    by apply map_lookup_filter_Some in Hk as [? _].
Qed.

(** ** The order status update *)

(** C1. For every order a detail request resolves to and every requested
    status value, [update_status] succeeds (it answers "order status
    updated" and the stored order then carries exactly the requested value
    as its status) if and only if the requested value is non-empty and one
    of the configured status values. *)
Theorem update_status_succeeds_iff (choices : list (string * string)) (self : View)
    (db : DB) (order : instance Order) :
  OrderViewSet.get_object self db = (Return order, db) →
  (∃ db',
      OrderViewSet.update_status choices self db
        = (Return (Success "order status updated"), db')
      ∧ orders db' !! pk order
        = Some {| order_user := order_user (fields order);
                  order_status := requested_status self |})
  ↔ valid_status choices (requested_status self).
Proof.
  intros Hobj. rewrite (update_status_run choices self db order Hobj).
  rewrite <- status_accepted_true.
  destruct (OrderViewSet.status_accepted choices (requested_status self)) as [[]|e].
  - split; [done|]. intros _. eexists. split; [reflexivity|].
    simpl. apply lookup_insert_eq.
  - split; [|discriminate]. intros (db' & Hrun & _). discriminate Hrun.
  - split; [|discriminate]. intros (db' & Hrun & _). discriminate Hrun.
Qed.

Lemma update_status_succeeds_iff_witness :
  let self := Sample.detail Sample.alice 7 {[ "status" := VStr "shipped" ]} in
  OrderViewSet.get_object self Sample.db = (Return (Instance 7 Sample.order7), Sample.db)
  ∧ ((∃ db',
         OrderViewSet.update_status Sample.STATUS_CHOICES self Sample.db
           = (Return (Success "order status updated"), db')
         ∧ orders db' !! 7%Z
           = Some {| order_user := 1; order_status := requested_status self |})
     ↔ valid_status Sample.STATUS_CHOICES (requested_status self)).
Proof.
  intros self.
  assert (Hobj : OrderViewSet.get_object self Sample.db
                 = (Return (Instance 7 Sample.order7), Sample.db))
    by (vm_compute; reflexivity).
  split; [exact Hobj|].
  exact (update_status_succeeds_iff Sample.STATUS_CHOICES self Sample.db
           (Instance 7 Sample.order7) Hobj).
Defined.

(** C5. No transition graph: whatever status the resolved order has now,
    every configured status value is accepted and applied (the configured
    values being non-empty strings, as status names are). *)
Theorem update_status_any_transition (choices : list (string * string)) (self : View)
    (db : DB) (order : instance Order) (s : string) :
  "" ∉ choices.*1 →
  OrderViewSet.get_object self db = (Return order, db) →
  requested_status self = VStr s →
  s ∈ choices.*1 →
  ∃ db',
    OrderViewSet.update_status choices self db
      = (Return (Success "order status updated"), db')
    ∧ orders db' !! pk order
      = Some {| order_user := order_user (fields order); order_status := VStr s |}.
Proof.
  intros Hcfg Hobj Hreq Hin.
  assert (Hok : OrderViewSet.status_accepted choices (requested_status self) = Return true).
  { apply status_accepted_true. exists s. split; [done|]. split; [|done].
    intros ->. by apply Hcfg. }
  rewrite (update_status_run choices self db order Hobj), Hok, Hreq.
  eexists. split; [reflexivity|]. simpl. apply lookup_insert_eq.
Qed.

Lemma update_status_any_transition_witness :
  let self := Sample.detail Sample.alice 7 {[ "status" := VStr "pending" ]} in
  order_status Sample.order7 = VStr "delivered"
  ∧ ∃ db',
      OrderViewSet.update_status Sample.STATUS_CHOICES self Sample.db
        = (Return (Success "order status updated"), db')
      ∧ orders db' !! 7%Z = Some {| order_user := 1; order_status := VStr "pending" |}.
Proof.
  intros self. split; [reflexivity|].
  apply (update_status_any_transition Sample.STATUS_CHOICES self Sample.db
           (Instance 7 Sample.order7) "pending").
  - unfold Sample.STATUS_CHOICES. simpl. rewrite !elem_of_cons, elem_of_nil.
    intros [H|[H|[H|[H|[H|[]]]]]]; discriminate H.
  - vm_compute; reflexivity.
  - vm_compute; reflexivity.
  - unfold Sample.STATUS_CHOICES. simpl. apply list_elem_of_here.
Defined.

(** A hashable value that is empty or not a configured status is turned
    down with "invalid status", and nothing is written. *)
Lemma update_status_rejects_hashable (choices : list (string * string)) (self : View)
    (db : DB) (order : instance Order) :
  OrderViewSet.get_object self db = (Return order, db) →
  hashable (requested_status self) = true →
  ¬ valid_status choices (requested_status self) →
  OrderViewSet.update_status choices self db
    = (Return (InvalidRequest "invalid status"), db).
Proof.
  intros Hobj Hhash Hbad.
  rewrite (update_status_run choices self db order Hobj).
  rewrite <- status_accepted_true in Hbad.
  destruct (OrderViewSet.status_accepted choices (requested_status self))
    as [[]|e] eqn:Hacc; [done|done|].
  unfold OrderViewSet.status_accepted in Hacc.
  destruct (truthy (requested_status self)); [|discriminate].
  destruct (requested_status self); simpl in *; discriminate.
Qed.

(** A non-empty list or dict as the requested status is not turned down:
    the membership test raises [TypeError] out of the action. *)
Lemma update_status_raises_unhashable (choices : list (string * string)) (self : View)
    (db : DB) (order : instance Order) :
  OrderViewSet.get_object self db = (Return order, db) →
  hashable (requested_status self) = false →
  truthy (requested_status self) = true →
  ∃ msg, OrderViewSet.update_status choices self db = (Raise (TypeError msg), db).
Proof.
  intros Hobj Hhash Htrue.
  rewrite (update_status_run choices self db order Hobj).
  unfold OrderViewSet.status_accepted. rewrite Htrue.
  destruct (requested_status self); simpl in *; try discriminate; by eexists.
Qed.

(** C7. At the body [{"status": ["pending"]}] the requested value is not
    in the configured status set, yet the action does not answer "invalid
    status": it raises [TypeError] (the order is left as it was). *)
Theorem update_status_list_value_raises :
  let self := Sample.detail Sample.alice 7 {[ "status" := VList [VStr "pending"] ]} in
  ¬ valid_status Sample.STATUS_CHOICES (requested_status self)
  ∧ OrderViewSet.update_status Sample.STATUS_CHOICES self Sample.db
    = (Raise (TypeError "unhashable type: 'list'"), Sample.db).
Proof.
  intros self. split.
  - intros (s & Heq & _). vm_compute in Heq. discriminate Heq.
  - rewrite (update_status_run Sample.STATUS_CHOICES self Sample.db
               (Instance 7 Sample.order7)) by (vm_compute; reflexivity).
    reflexivity.
Qed.

(** C9. At the body [{"status": {"to": "shipped"}}], an invalid status,
    [update_status] returns no response at all, neither a success nor an
    [InvalidRequest]: it raises [TypeError]. *)
Theorem update_status_dict_value_raises :
  let self :=
    Sample.detail Sample.carol 8 {[ "status" := VDict [("to", VStr "shipped")] ]} in
  (∀ r db', OrderViewSet.update_status Sample.STATUS_CHOICES self Sample.db
            ≠ (Return r, db'))
  ∧ OrderViewSet.update_status Sample.STATUS_CHOICES self Sample.db
    = (Raise (TypeError "unhashable type: 'dict'"), Sample.db).
Proof.
  intros self.
  assert (Hrun : OrderViewSet.update_status Sample.STATUS_CHOICES self Sample.db
                 = (Raise (TypeError "unhashable type: 'dict'"), Sample.db)).
  { rewrite (update_status_run Sample.STATUS_CHOICES self Sample.db
               (Instance 8 Sample.order8)) by (vm_compute; reflexivity).
    reflexivity. }
  split; [|exact Hrun]. intros r db'. rewrite Hrun. discriminate.
Qed.


(** C8. The outcome of [update_status] is decided by the order acted on
    and the request body alone: two requests with the same body whose
    lookups resolve to the same order, made by whichever users, give the
    same response and leave the same database. *)
Theorem update_status_independent_of_actor (choices : list (string * string))
    (self1 self2 : View) (db : DB) (order : instance Order) :
  data (request self1) = data (request self2) →
  OrderViewSet.get_object self1 db = (Return order, db) →
  OrderViewSet.get_object self2 db = (Return order, db) →
  OrderViewSet.update_status choices self1 db
    = OrderViewSet.update_status choices self2 db.
Proof.
  intros Hdata Hobj1 Hobj2.
  rewrite (update_status_run choices self1 db order Hobj1).
  rewrite (update_status_run choices self2 db order Hobj2).
  unfold requested_status. by rewrite Hdata.
Qed.

Lemma update_status_independent_of_actor_witness :
  let body : gmap string pyval := {[ "status" := VStr "cancelled" ]} in
  Sample.alice ≠ Sample.carol
  ∧ OrderViewSet.update_status Sample.STATUS_CHOICES
      (Sample.detail Sample.alice 7 body) Sample.db
    = OrderViewSet.update_status Sample.STATUS_CHOICES
        (Sample.detail Sample.carol 7 body) Sample.db.
Proof.
  intros body. split; [discriminate|].
  apply (update_status_independent_of_actor Sample.STATUS_CHOICES
           (Sample.detail Sample.alice 7 body) (Sample.detail Sample.carol 7 body)
           Sample.db (Instance 7 Sample.order7)).
  - reflexivity.
  - vm_compute; reflexivity.
  - vm_compute; reflexivity.
Defined.

(** Which orders a user's lookup resolves is the queryset's business: a
    user who is neither staff nor the owner gets [Http404] from the lookup,
    before the status rule is reached. *)
Lemma update_status_unreachable_order :
  OrderViewSet.update_status Sample.STATUS_CHOICES
    (Sample.detail Sample.bob 7 {[ "status" := VStr "cancelled" ]}) Sample.db
  = (Raise Http404, Sample.db).
Proof. vm_compute; reflexivity. Qed.

(** ** The stock update *)

(** C2. For every product a detail request resolves to and every requested
    stock value [v] other than the absent one, [update_stock] answers
    "stock updated" and the stored product then has stock exactly [v]
    (nothing is clamped or range-checked); no other row changes. *)
Theorem update_stock_sets_exactly (self : View) (db : DB) (product : instance Product)
    (v : pyval) :
  ProductViewSet.get_object self db = (Return product, db) →
  requested_stock self = v →
  v ≠ VNone →
  ∃ db',
    ProductViewSet.update_stock self db = (Return (Success "stock updated"), db')
    ∧ products db' !! pk product
      = Some {| product_category := product_category (fields product);
                product_stock := v |}
    ∧ (∀ k, k ≠ pk product → products db' !! k = products db !! k)
    ∧ orders db' = orders db
    ∧ order_items db' = order_items db.
Proof.
  intros Hobj Hreq Hv.
  rewrite (update_stock_run self db product Hobj), Hreq.
  destruct v; try done; simpl; eexists; (split; [reflexivity|]); simpl;
    (split; [apply lookup_insert_eq|]);
    (split; [|done]); intros k Hk; by apply lookup_insert_ne.
Qed.

Lemma update_stock_sets_exactly_witness :
  let self := Sample.detail Sample.bob 1 {[ "stock" := VInt (-3) ]} in
  ∃ db',
    ProductViewSet.update_stock self Sample.db = (Return (Success "stock updated"), db')
    ∧ products db' !! 1%Z = Some {| product_category := 4; product_stock := VInt (-3) |}
    ∧ (∀ k, k ≠ 1%Z → products db' !! k = products Sample.db !! k)
    ∧ orders db' = orders Sample.db
    ∧ order_items db' = order_items Sample.db.
Proof.
  intros self.
  apply (update_stock_sets_exactly self Sample.db (Instance 1 Sample.product1)
           (VInt (-3))).
  - vm_compute; reflexivity.
  - vm_compute; reflexivity.
  - discriminate.
Defined.

(** C6. For every product a detail request resolves to, [update_stock]
    with an absent stock value answers [InvalidRequest] "stock value not
    provided" and the database, the product's stock with it, is the one it
    was: nothing is saved. *)
Theorem update_stock_absent (self : View) (db : DB) (product : instance Product) :
  ProductViewSet.get_object self db = (Return product, db) →
  requested_stock self = VNone →
  ProductViewSet.update_stock self db
    = (Return (InvalidRequest "stock value not provided"), db).
Proof.
  intros Hobj Hreq.
  by rewrite (update_stock_run self db product Hobj), Hreq.
Qed.

Lemma update_stock_absent_witness :
  let self := Sample.detail Sample.alice 1 {[ "status" := VStr "shipped" ]} in
  data (request self) !! "stock" = None
  ∧ ProductViewSet.update_stock self Sample.db
    = (Return (InvalidRequest "stock value not provided"), Sample.db).
Proof.
  intros self. split; [vm_compute; reflexivity|].
  apply (update_stock_absent self Sample.db (Instance 1 Sample.product1)).
  - vm_compute; reflexivity.
  - vm_compute; reflexivity.
Defined.

(** C10. Presence of the stock value is a test against [None], not a truth
    test: the requested stock 0 is taken and stored as exactly 0. The status
    guard is a truth test: the empty string is turned down whatever the
    configured statuses are, an empty-string entry among them included. *)
Theorem zero_stock_taken_empty_status_refused :
  (∀ (self : View) (db : DB) (product : instance Product),
      ProductViewSet.get_object self db = (Return product, db) →
      requested_stock self = VInt 0 →
      ∃ db',
        ProductViewSet.update_stock self db = (Return (Success "stock updated"), db')
        ∧ products db' !! pk product
          = Some {| product_category := product_category (fields product);
                    product_stock := VInt 0 |})
  ∧ (∀ (choices : list (string * string)) (self : View) (db : DB)
       (order : instance Order),
        OrderViewSet.get_object self db = (Return order, db) →
        requested_status self = VStr "" →
        OrderViewSet.update_status choices self db
          = (Return (InvalidRequest "invalid status"), db)).
Proof.
  split.
  - intros self db product Hobj Hreq.
    rewrite (update_stock_run self db product Hobj), Hreq. simpl.
    eexists. split; [reflexivity|]. simpl. apply lookup_insert_eq.
  - intros choices self db order Hobj Hreq.
    by rewrite (update_status_run choices self db order Hobj), Hreq.
Qed.

Lemma zero_stock_taken_empty_status_refused_witness :
  (∃ db',
      ProductViewSet.update_stock
        (Sample.detail Sample.alice 1 {[ "stock" := VInt 0 ]}) Sample.db
        = (Return (Success "stock updated"), db')
      ∧ products db' !! 1%Z = Some {| product_category := 4; product_stock := VInt 0 |})
  ∧ OrderViewSet.update_status (("", "Unset") :: Sample.STATUS_CHOICES)
      (Sample.detail Sample.alice 7 {[ "status" := VStr "" ]}) Sample.db
    = (Return (InvalidRequest "invalid status"), Sample.db).
Proof.
  destruct zero_stock_taken_empty_status_refused as [Hstock Hstatus]. split.
  - apply (Hstock (Sample.detail Sample.alice 1 {[ "stock" := VInt 0 ]}) Sample.db
             (Instance 1 Sample.product1)); vm_compute; reflexivity.
  - apply (Hstatus (("", "Unset") :: Sample.STATUS_CHOICES)
             (Sample.detail Sample.alice 7 {[ "status" := VStr "" ]}) Sample.db
             (Instance 7 Sample.order7)); vm_compute; reflexivity.
Defined.

(** ** The visibility filters *)

(** C3. For every acting user and every store, the orders queryset is
    the whole orders table when the user is staff, and otherwise holds
    exactly the orders whose owner is the user, and no others. *)
Theorem orders_visible_to_actor (self : View) (db : DB) :
  ∃ qs : gmap Z Order,
    OrderViewSet.get_queryset self db = (Return qs, db)
    ∧ (is_staff (user (request self)) = true → qs = orders db)
    ∧ (is_staff (user (request self)) = false →
       ∀ k o, qs !! k = Some o
              ↔ orders db !! k = Some o ∧ order_user o = user_pk (user (request self))).
Proof.
  unfold OrderViewSet.get_queryset, bind, all_orders, ret.
  destruct (is_staff (user (request self))); eexists; (split; [reflexivity|]).
  - split; [done|discriminate].
  - split; [discriminate|]. intros _ k o. by rewrite map_lookup_filter_Some.
Qed.

Lemma orders_visible_to_actor_witness :
  (∃ qs : gmap Z Order,
      OrderViewSet.get_queryset (Sample.listing Sample.carol None) Sample.db
        = (Return qs, Sample.db)
      ∧ qs = orders Sample.db)
  ∧ (∃ qs : gmap Z Order,
        OrderViewSet.get_queryset (Sample.listing Sample.bob None) Sample.db
          = (Return qs, Sample.db)
        ∧ qs !! 8%Z = Some Sample.order8 ∧ qs !! 7%Z = None).
Proof.
  split.
  - destruct (orders_visible_to_actor (Sample.listing Sample.carol None) Sample.db)
      as (qs & Hrun & Hstaff & _).
    exists qs. split; [exact Hrun|]. apply Hstaff. reflexivity.
  - destruct (orders_visible_to_actor (Sample.listing Sample.bob None) Sample.db)
      as (qs & Hrun & _ & Hown).
    exists qs. split; [exact Hrun|].
    assert (Hbob : is_staff (user (request (Sample.listing Sample.bob None))) = false)
      by reflexivity.
    split.
    + apply (Hown Hbob). split; reflexivity.
    + destruct (qs !! 7%Z) as [o|] eqn:Hq; [|reflexivity].
      apply (Hown Hbob) in Hq as [Hrow Hu].
      vm_compute in Hrow. injection Hrow as <-. discriminate Hu.
Defined.

(** C4. For every store of order items, the order-items queryset is
    empty when no scoping order id is given, whatever the table holds, and
    with a scoping id it holds exactly the items whose parent order id is
    that id. *)
Theorem order_items_visible_in_scope (self : View) (db : DB) :
  ∃ qs : gmap Z OrderItem,
    OrderItemViewSet.get_queryset self db = (Return qs, db)
    ∧ (kwargs self !! "order_pk" = None → qs = ∅)
    ∧ (∀ i, kwargs self !! "order_pk" = Some i →
       ∀ k it, qs !! k = Some it
               ↔ order_items db !! k = Some it ∧ item_order_id it = i).
Proof.
  unfold OrderItemViewSet.get_queryset, bind, all_order_items, ret.
  destruct (kwargs self !! "order_pk") as [i|]; eexists; (split; [reflexivity|]).
  - split; [discriminate|]. intros ? [= <-] k it. by rewrite map_lookup_filter_Some.
  - split; [done|discriminate].
Qed.

Lemma order_items_visible_in_scope_witness :
  (order_items Sample.db !! 1%Z = Some Sample.item1
   ∧ ∃ qs : gmap Z OrderItem,
       OrderItemViewSet.get_queryset (Sample.listing Sample.alice None) Sample.db
         = (Return qs, Sample.db)
       ∧ qs = ∅)
  ∧ (∃ qs : gmap Z OrderItem,
        OrderItemViewSet.get_queryset (Sample.listing Sample.alice (Some 7%Z)) Sample.db
          = (Return qs, Sample.db)
        ∧ qs !! 1%Z = Some Sample.item1 ∧ qs !! 3%Z = Some Sample.item3
        ∧ qs !! 2%Z = None).
Proof.
  split.
  - split; [vm_compute; reflexivity|].
    destruct (order_items_visible_in_scope (Sample.listing Sample.alice None) Sample.db)
      as (qs & Hrun & Hnone & _).
    exists qs. split; [exact Hrun|]. apply Hnone. reflexivity.
  - destruct (order_items_visible_in_scope (Sample.listing Sample.alice (Some 7%Z))
                Sample.db) as (qs & Hrun & _ & Hscope).
    exists qs. split; [exact Hrun|].
    assert (Hk : kwargs (Sample.listing Sample.alice (Some 7%Z)) !! "order_pk" = Some 7%Z)
      by (vm_compute; reflexivity).
    split; [|split].
    + apply (Hscope _ Hk). split; [vm_compute; reflexivity|reflexivity].
    + apply (Hscope _ Hk). split; [vm_compute; reflexivity|reflexivity].
    + destruct (qs !! 2%Z) as [it|] eqn:Hq; [|reflexivity].
      apply (Hscope _ Hk) in Hq as [Hrow Hi].
      vm_compute in Hrow. injection Hrow as <-. discriminate Hi.
Defined.

(** ** The two scenarios of the interface description, run in sequence *)

(** Product 1 with stock 5: a stock update to 10 succeeds, then an update
    without a stock value is turned down and the stock stays 10. *)
Example stock_scenario :
  ∃ db1 db2,
    ProductViewSet.update_stock
      (Sample.detail Sample.alice 1 {[ "stock" := VInt 10 ]}) Sample.db
      = (Return (Success "stock updated"), db1)
    ∧ product_stock <$> products db1 !! 1%Z = Some (VInt 10)
    ∧ ProductViewSet.update_stock (Sample.detail Sample.alice 1 ∅) db1
      = (Return (InvalidRequest "stock value not provided"), db2)
    ∧ product_stock <$> products db2 !! 1%Z = Some (VInt 10).
Proof. do 2 eexists. repeat split; vm_compute; reflexivity. Qed.

(** Order 8, pending: an update to shipped succeeds, then an update to an
    unknown status is turned down and the status stays shipped. *)
Example status_scenario :
  ∃ db1 db2,
    OrderViewSet.update_status Sample.STATUS_CHOICES
      (Sample.detail Sample.bob 8 {[ "status" := VStr "shipped" ]}) Sample.db
      = (Return (Success "order status updated"), db1)
    ∧ order_status <$> orders db1 !! 8%Z = Some (VStr "shipped")
    ∧ OrderViewSet.update_status Sample.STATUS_CHOICES
        (Sample.detail Sample.bob 8 {[ "status" := VStr "bogus" ]}) db1
      = (Return (InvalidRequest "invalid status"), db2)
    ∧ order_status <$> orders db2 !! 8%Z = Some (VStr "shipped").
Proof. do 2 eexists. repeat split; vm_compute; reflexivity. Qed.

(** * Further properties of the views *)

(** ** Lookups *)

Lemma get_object_from_db {A} (self : View) (qs : gmap Z A) (db db' : DB)
    (r : outcome (instance A)) :
  get_object_from self qs db = (r, db') → db' = db.
Proof.
  unfold get_object_from, ret, raise.
  destruct (kwargs self !! "pk") as [k|]; [destruct (qs !! k)|]; by intros [= _ <-].
Qed.

Lemma get_object_from_Return {A} (self : View) (qs : gmap Z A) (db : DB)
    (o : instance A) :
  get_object_from self qs db = (Return o, db)
  ↔ kwargs self !! "pk" = Some (pk o) ∧ qs !! pk o = Some (fields o).
Proof.
  unfold get_object_from, ret, raise. destruct o as [k r]. simpl. split.
  - destruct (kwargs self !! "pk") as [k'|]; [|discriminate].
    destruct (qs !! k') eqn:Hk; [|discriminate]. intros [= -> ->]. by rewrite Hk.
  - intros [-> ->]. done.
Qed.

(** A detail request resolves an order exactly when the row exists and the
    user is staff or the row's owner. *)
Lemma order_get_object_Return (self : View) (db : DB) (o : instance Order) :
  OrderViewSet.get_object self db = (Return o, db)
  ↔ kwargs self !! "pk" = Some (pk o)
    ∧ orders db !! pk o = Some (fields o)
    ∧ (is_staff (user (request self)) = true
       ∨ order_user (fields o) = user_pk (user (request self))).
Proof.
  unfold OrderViewSet.get_object, OrderViewSet.get_queryset, bind, all_orders, ret.
  destruct (is_staff (user (request self))); simpl; rewrite get_object_from_Return.
  - intuition.
  - rewrite map_lookup_filter_Some. simpl. intuition discriminate.
Qed.

Lemma order_get_object_db (self : View) (db db' : DB) (r : outcome (instance Order)) :
  OrderViewSet.get_object self db = (r, db') → db' = db.
Proof.
  unfold OrderViewSet.get_object, OrderViewSet.get_queryset, bind, all_orders, ret.
  destruct (is_staff (user (request self))); simpl; apply get_object_from_db.
Qed.

(** A detail request resolves a product exactly when the row exists and
    lies in the category the query asks for, if it asks for one. *)
Lemma product_get_object_Return (self : View) (db : DB) (p : instance Product) :
  ProductViewSet.get_object self db = (Return p, db)
  ↔ kwargs self !! "pk" = Some (pk p)
    ∧ products db !! pk p = Some (fields p)
    ∧ (∀ c, query_params (request self) !! "category" = Some c →
            product_category (fields p) = c).
Proof.
  unfold ProductViewSet.get_object, ProductViewSet.get_queryset, bind, all_products, ret.
  destruct (query_params (request self) !! "category") as [c|]; simpl;
    rewrite get_object_from_Return.
  - rewrite map_lookup_filter_Some. simpl.
    split; [intros (? & ? & ?)|intros (? & ? & Hc)]; repeat split; try done.
    + by intros ? [= <-].
    + by apply Hc.
  - split; [intros (? & ?)|intros (? & ? & _)]; repeat split; done.
Qed.

Lemma product_get_object_db (self : View) (db db' : DB)
    (r : outcome (instance Product)) :
  ProductViewSet.get_object self db = (r, db') → db' = db.
Proof.
  unfold ProductViewSet.get_object, ProductViewSet.get_queryset, bind, all_products, ret.
  destruct (query_params (request self) !! "category"); simpl; apply get_object_from_db.
Qed.

(** Each action is its lookup followed by the rule on the resolved object;
    an exception of the lookup passes through with the database intact. *)
Lemma update_status_cases (choices : list (string * string)) (self : View) (db : DB) :
  (∃ order, OrderViewSet.get_object self db = (Return order, db))
  ∨ (∃ e, OrderViewSet.get_object self db = (Raise e, db)
          ∧ OrderViewSet.update_status choices self db = (Raise e, db)).
Proof.
  destruct (OrderViewSet.get_object self db) as [[order|e] db1] eqn:Hobj;
    pose proof (order_get_object_db _ _ _ _ Hobj) as ->.
  - left. by exists order.
  - right. exists e. split; [done|].
    unfold OrderViewSet.update_status, bind. by rewrite Hobj.
Qed.

Lemma update_stock_cases (self : View) (db : DB) :
  (∃ product, ProductViewSet.get_object self db = (Return product, db))
  ∨ (∃ e, ProductViewSet.get_object self db = (Raise e, db)
          ∧ ProductViewSet.update_stock self db = (Raise e, db)).
Proof.
  destruct (ProductViewSet.get_object self db) as [[product|e] db1] eqn:Hobj;
    pose proof (product_get_object_db _ _ _ _ Hobj) as ->.
  - left. by exists product.
  - right. exists e. split; [done|].
    unfold ProductViewSet.update_stock, bind. by rewrite Hobj.
Qed.

Lemma get_object_from_Raise {A} (self : View) (qs : gmap Z A) (db : DB) (e : exn) :
  get_object_from self qs db = (Raise e, db)
  ↔ (e = AssertionError ∧ kwargs self !! "pk" = None)
    ∨ (e = Http404 ∧ ∃ k, kwargs self !! "pk" = Some k ∧ qs !! k = None).
Proof.
  unfold get_object_from, ret, raise.
  destruct (kwargs self !! "pk") as [k|]; [destruct (qs !! k) eqn:Hk|]; split.
  - discriminate.
  - intros [[_ ?]|[_ (k' & [= <-] & ?)]]; congruence.
  - intros [= <-]. right. eauto.
  - intros [[_ ?]|[-> _]]; [discriminate|done].
  - intros [= <-]. by left.
  - intros [[-> _]|[_ (k' & ? & _)]]; [done|discriminate].
Qed.

Lemma update_status_not_Http404_after_lookup (choices : list (string * string))
    (self : View) (db : DB) (order : instance Order) :
  OrderViewSet.get_object self db = (Return order, db) →
  OrderViewSet.update_status choices self db ≠ (Raise Http404, db).
Proof.
  intros Hobj. rewrite (update_status_run choices self db order Hobj).
  unfold OrderViewSet.status_accepted.
  destruct (truthy (requested_status self)); [|discriminate].
  destruct (requested_status self); simpl; try discriminate.
  by destruct (bool_decide _).
Qed.

(** ** Where the lookups answer [Http404] *)





(** X3. The status update answers [Http404] exactly when the detail key
    names no order, or names an order of another user while the acting user
    is not staff; this holds whatever the body is, and nothing is written. *)
Theorem update_status_not_found_iff (choices : list (string * string)) (self : View)
    (db : DB) :
  OrderViewSet.update_status choices self db = (Raise Http404, db)
  ↔ ∃ k, kwargs self !! "pk" = Some k
         ∧ ∀ o, orders db !! k = Some o →
                is_staff (user (request self)) = false
                ∧ order_user o ≠ user_pk (user (request self)).
Proof.
  destruct (update_status_cases choices self db) as [[order Hobj]|(e & Hobj & Hrun)].
  - split.
    + intros Hrun. by apply (update_status_not_Http404_after_lookup _ _ _ _ Hobj) in Hrun.
    + intros (k & Hk & Hrow).
      apply order_get_object_Return in Hobj as (Hpk & Ho & Hvis).
      assert (k = pk order) as -> by congruence.
      destruct (Hrow _ Ho) as [Hstaff Hne]. destruct Hvis; congruence.
  - rewrite Hrun. revert Hobj.
    unfold OrderViewSet.get_object, OrderViewSet.get_queryset, bind, all_orders, ret.
    destruct (is_staff (user (request self))); simpl; rewrite get_object_from_Raise.
    + intros [[-> Hpk]|[-> (k & Hpk & Hq)]].
      * split; [discriminate|]. intros (k & ? & _). congruence.
      * split; [|done]. intros _. exists k. split; [done|]. intros o Ho. congruence.
    + intros [[-> Hpk]|[-> (k & Hpk & Hq)]].
      * split; [discriminate|]. intros (k & ? & _). congruence.
      * split; [|done]. intros _. exists k. split; [done|]. intros o Ho.
        split; [done|]. intros Hu.
        apply map_lookup_filter_None in Hq as [Hq|Hq]; [congruence|].
        by apply (Hq o).
Qed.

Lemma update_status_not_found_iff_witness :
  let self := Sample.detail Sample.bob 7 {[ "status" := VStr "shipped" ]} in
  orders Sample.db !! 7%Z = Some Sample.order7
  ∧ OrderViewSet.update_status Sample.STATUS_CHOICES self Sample.db
    = (Raise Http404, Sample.db).
Proof.
  intros self. split; [vm_compute; reflexivity|].
  apply (update_status_not_found_iff Sample.STATUS_CHOICES self Sample.db).
  exists 7%Z. split; [vm_compute; reflexivity|].
  intros o Ho. vm_compute in Ho. injection Ho as <-.
  split; [reflexivity|discriminate].
Defined.

(** ** What a run of an action does to the database *)

(** A run of the status update either leaves the database as it was, or it
    succeeded on the resolved order with a valid status and rewrote that one
    row. *)
Lemma update_status_effect (choices : list (string * string)) (self : View)
    (db db' : DB) (r : outcome Response) :
  OrderViewSet.update_status choices self db = (r, db') →
  (db' = db ∧ r ≠ Return (Success "order status updated"))
  ∨ (∃ order,
        OrderViewSet.get_object self db = (Return order, db)
        ∧ valid_status choices (requested_status self)
        ∧ r = Return (Success "order status updated")
        ∧ db' = {| products := products db;
                   orders := <[pk order :=
                                 {| order_user := order_user (fields order);
                                    order_status := requested_status self |}]> (orders db);
                   order_items := order_items db |}).
Proof.
  destruct (update_status_cases choices self db) as [[order Hobj]|(e & _ & ->)].
  - rewrite (update_status_run choices self db order Hobj).
    destruct (OrderViewSet.status_accepted choices (requested_status self))
      as [[]|e] eqn:Hacc; intros [= <- <-].
    + right. exists order. by rewrite <- status_accepted_true.
    + by left.
    + by left.
  - intros [= <- <-]. by left.
Qed.

(** The same for the stock update: the database is as it was, or the
    resolved product's stock was rewritten with a present value. *)
Lemma update_stock_effect (self : View) (db db' : DB) (r : outcome Response) :
  ProductViewSet.update_stock self db = (r, db') →
  (db' = db ∧ r ≠ Return (Success "stock updated"))
  ∨ (∃ product,
        ProductViewSet.get_object self db = (Return product, db)
        ∧ requested_stock self ≠ VNone
        ∧ r = Return (Success "stock updated")
        ∧ db' = {| products := <[pk product :=
                                   {| product_category := product_category (fields product);
                                      product_stock := requested_stock self |}]> (products db);
                   orders := orders db;
                   order_items := order_items db |}).
Proof.
  destruct (update_stock_cases self db) as [[product Hobj]|(e & _ & ->)].
  - rewrite (update_stock_run self db product Hobj).
    destruct (is_none (requested_stock self)) eqn:Hnone; intros [= <- <-].
    + by left.
    + right. exists product. repeat split; try done.
      intros Heq. by rewrite Heq in Hnone.
  - intros [= <- <-]. by left.
Qed.

(** X5. The status update writes only when it succeeds: after any other
    outcome, an [InvalidRequest], an [Http404] or a [TypeError], the
    database is exactly the one before the call. *)
Theorem update_status_failure_writes_nothing (choices : list (string * string))
    (self : View) (db db' : DB) (r : outcome Response) :
  OrderViewSet.update_status choices self db = (r, db') →
  r ≠ Return (Success "order status updated") →
  db' = db.
Proof.
  intros Hrun Hfail.
  by destruct (update_status_effect _ _ _ _ _ Hrun) as [[-> _]|(? & _ & _ & -> & _)].
Qed.

Lemma update_status_failure_writes_nothing_witness :
  ∃ msg,
    OrderViewSet.update_status Sample.STATUS_CHOICES
      (Sample.detail Sample.alice 7 {[ "status" := VList [VStr "shipped"] ]}) Sample.db
    = (Raise (TypeError msg), Sample.db).
Proof.
  destruct (OrderViewSet.update_status Sample.STATUS_CHOICES
              (Sample.detail Sample.alice 7 {[ "status" := VList [VStr "shipped"] ]})
              Sample.db) as [r db'] eqn:Hrun.
  assert (Hr : r = Raise (TypeError "unhashable type: 'list'"))
    by (vm_compute in Hrun; congruence).
  rewrite (update_status_failure_writes_nothing _ _ _ _ _ Hrun)
    by (rewrite Hr; discriminate).
  rewrite Hr. by eexists.
Defined.

(** X6. The stock update writes only when it succeeds: after an
    [InvalidRequest] or a failed lookup the database is exactly the one
    before the call. *)
Theorem update_stock_failure_writes_nothing (self : View) (db db' : DB)
    (r : outcome Response) :
  ProductViewSet.update_stock self db = (r, db') →
  r ≠ Return (Success "stock updated") →
  db' = db.
Proof.
  intros Hrun Hfail.
  by destruct (update_stock_effect _ _ _ _ Hrun) as [[-> _]|(? & _ & _ & -> & _)].
Qed.

Lemma update_stock_failure_writes_nothing_witness :
  ProductViewSet.update_stock
    (Sample.detail Sample.alice 1 {[ "stock" := VNone ]}) Sample.db
  = (Return (InvalidRequest "stock value not provided"), Sample.db).
Proof.
  destruct (ProductViewSet.update_stock
              (Sample.detail Sample.alice 1 {[ "stock" := VNone ]}) Sample.db)
    as [r db'] eqn:Hrun.
  assert (Hr : r = Return (InvalidRequest "stock value not provided"))
    by (vm_compute in Hrun; vm_compute; congruence).
  rewrite (update_stock_failure_writes_nothing _ _ _ _ Hrun)
    by (rewrite Hr; discriminate).
  by rewrite Hr.
Defined.

(** X7. Whatever its outcome, the status update never touches the
    products or the order items, never adds or removes an order and never
    changes the owner of one. *)
Theorem update_status_frame (choices : list (string * string)) (self : View)
    (db db' : DB) (r : outcome Response) :
  OrderViewSet.update_status choices self db = (r, db') →
  products db' = products db
  ∧ order_items db' = order_items db
  ∧ ∀ k, order_user <$> orders db' !! k = order_user <$> orders db !! k.
Proof.
  intros Hrun.
  destruct (update_status_effect _ _ _ _ _ Hrun)
    as [[-> _]|(order & Hobj & _ & _ & ->)]; [done|].
  simpl. repeat split. intros k.
  apply order_get_object_Return in Hobj as (_ & Ho & _).
  destruct (decide (k = pk order)) as [->|Hne].
  - by rewrite lookup_insert_eq, Ho.
  - by rewrite lookup_insert_ne.
Qed.

Lemma update_status_frame_witness :
  ∃ r db',
    OrderViewSet.update_status Sample.STATUS_CHOICES
      (Sample.detail Sample.carol 8 {[ "status" := VStr "shipped" ]}) Sample.db
    = (r, db')
    ∧ products db' = products Sample.db
    ∧ order_items db' = order_items Sample.db
    ∧ ∀ k, order_user <$> orders db' !! k = order_user <$> orders Sample.db !! k.
Proof.
  destruct (OrderViewSet.update_status Sample.STATUS_CHOICES
              (Sample.detail Sample.carol 8 {[ "status" := VStr "shipped" ]})
              Sample.db) as [r db'] eqn:Hrun.
  exists r, db'. split; [reflexivity|].
  exact (update_status_frame _ _ _ _ _ Hrun).
Defined.

(** X8. Whatever its outcome, the stock update never touches the orders
    or the order items, never adds or removes a product and never changes
    the category of one. *)
Theorem update_stock_frame (self : View) (db db' : DB) (r : outcome Response) :
  ProductViewSet.update_stock self db = (r, db') →
  orders db' = orders db
  ∧ order_items db' = order_items db
  ∧ ∀ k, product_category <$> products db' !! k
         = product_category <$> products db !! k.
Proof.
  intros Hrun.
  destruct (update_stock_effect _ _ _ _ Hrun)
    as [[-> _]|(product & Hobj & _ & _ & ->)]; [done|].
  simpl. repeat split. intros k.
  apply product_get_object_Return in Hobj as (_ & Hp & _).
  destruct (decide (k = pk product)) as [->|Hne].
  - by rewrite lookup_insert_eq, Hp.
  - by rewrite lookup_insert_ne.
Qed.

Lemma update_stock_frame_witness :
  ∃ r db',
    ProductViewSet.update_stock
      (Sample.detail Sample.bob 1 {[ "stock" := VStr "many" ]}) Sample.db
    = (r, db')
    ∧ orders db' = orders Sample.db
    ∧ order_items db' = order_items Sample.db
    ∧ ∀ k, product_category <$> products db' !! k
           = product_category <$> products Sample.db !! k.
Proof.
  destruct (ProductViewSet.update_stock
              (Sample.detail Sample.bob 1 {[ "stock" := VStr "many" ]}) Sample.db)
    as [r db'] eqn:Hrun.
  exists r, db'. split; [reflexivity|].
  exact (update_stock_frame _ _ _ _ Hrun).
Defined.

(** The keys and owners of the orders table decide who sees which order. *)
Lemma orders_queryset_dom (viewer : View) (db1 db2 : DB) (qs1 qs2 : gmap Z Order) :
  (∀ k, order_user <$> orders db1 !! k = order_user <$> orders db2 !! k) →
  OrderViewSet.get_queryset viewer db1 = (Return qs1, db1) →
  OrderViewSet.get_queryset viewer db2 = (Return qs2, db2) →
  dom qs1 = dom qs2.
Proof.
  intros Hown. unfold OrderViewSet.get_queryset, bind, all_orders, ret.
  destruct (is_staff (user (request viewer))); intros [= <-] [= <-];
    apply set_eq; intros k; rewrite !elem_of_dom; specialize (Hown k).
  - destruct (orders db1 !! k), (orders db2 !! k); try done;
      split; intros [? ?]; done.
  - unfold is_Some. setoid_rewrite map_lookup_filter_Some. simpl.
    destruct (orders db1 !! k) as [o1|], (orders db2 !! k) as [o2|];
      simpl in Hown; try done.
    injection Hown as Hown.
    split; intros (? & [= <-] & ?); eexists; (split; [done|]); congruence.
Qed.

(** X9. A status update never changes who can see which order: for every
    viewer, the orders queryset has the same keys after the update as
    before, whatever the update's outcome. *)
Theorem update_status_preserves_visibility (choices : list (string * string))
    (self viewer : View) (db db' : DB) (r : outcome Response)
    (qs qs' : gmap Z Order) :
  OrderViewSet.update_status choices self db = (r, db') →
  OrderViewSet.get_queryset viewer db = (Return qs, db) →
  OrderViewSet.get_queryset viewer db' = (Return qs', db') →
  dom qs' = dom qs.
Proof.
  intros Hrun Hqs Hqs'.
  destruct (update_status_effect _ _ _ _ _ Hrun)
    as [[-> _]|(order & Hobj & _ & _ & ->)].
  - congruence.
  - refine (orders_queryset_dom viewer _ _ _ _ _ Hqs' Hqs).
    intros k. simpl.
    apply order_get_object_Return in Hobj as (_ & Ho & _).
    destruct (decide (k = pk order)) as [->|Hne].
    + by rewrite lookup_insert_eq, Ho.
    + by rewrite lookup_insert_ne.
Qed.

Lemma update_status_preserves_visibility_witness :
  ∃ db' (qs qs' : gmap Z Order),
    OrderViewSet.update_status Sample.STATUS_CHOICES
      (Sample.detail Sample.carol 7 {[ "status" := VStr "cancelled" ]}) Sample.db
    = (Return (Success "order status updated"), db')
    ∧ OrderViewSet.get_queryset (Sample.listing Sample.alice None) Sample.db
      = (Return qs, Sample.db)
    ∧ OrderViewSet.get_queryset (Sample.listing Sample.alice None) db'
      = (Return qs', db')
    ∧ dom qs' = dom qs.
Proof.
  do 3 eexists.
  split; [vm_compute; reflexivity|].
  split; [vm_compute; reflexivity|].
  split; [vm_compute; reflexivity|].
  eapply (update_status_preserves_visibility Sample.STATUS_CHOICES
            (Sample.detail Sample.carol 7 {[ "status" := VStr "cancelled" ]})
            (Sample.listing Sample.alice None) Sample.db);
    vm_compute; reflexivity.
Defined.

(** ** Repeating and combining updates *)

(** X10. The status update is idempotent: running the same request again
    on the database it left gives the same outcome and leaves that database
    unchanged. *)
Theorem update_status_idempotent (choices : list (string * string)) (self : View)
    (db db' : DB) (r : outcome Response) :
  OrderViewSet.update_status choices self db = (r, db') →
  OrderViewSet.update_status choices self db' = (r, db').
Proof.
  intros Hrun.
  destruct (update_status_effect _ _ _ _ _ Hrun)
    as [[-> _]|(order & Hobj & Hvalid & -> & ->)]; [done|].
  apply order_get_object_Return in Hobj as (Hpk & Ho & Hvis).
  set (row := {| order_user := order_user (fields order);
                 order_status := requested_status self |}).
  rewrite (update_status_run choices self _ (Instance (pk order) row)).
  - apply status_accepted_true in Hvalid. rewrite Hvalid. simpl.
    by rewrite insert_insert_eq.
  - apply order_get_object_Return. simpl. by rewrite lookup_insert_eq.
Qed.

Lemma update_status_idempotent_witness :
  let self := Sample.detail Sample.alice 7 {[ "status" := VStr "processing" ]} in
  ∃ db',
    OrderViewSet.update_status Sample.STATUS_CHOICES self Sample.db
      = (Return (Success "order status updated"), db')
    ∧ OrderViewSet.update_status Sample.STATUS_CHOICES self db'
      = (Return (Success "order status updated"), db').
Proof.
  intros self. eexists.
  assert (Hrun : ∀ db', OrderViewSet.update_status Sample.STATUS_CHOICES self Sample.db
                        = (Return (Success "order status updated"), db') →
                        OrderViewSet.update_status Sample.STATUS_CHOICES self db'
                        = (Return (Success "order status updated"), db'))
    by (intros db'; apply update_status_idempotent).
  split; [|apply Hrun]; vm_compute; reflexivity.
Defined.

(** X11. The stock update is idempotent in the same sense. *)
Theorem update_stock_idempotent (self : View) (db db' : DB) (r : outcome Response) :
  ProductViewSet.update_stock self db = (r, db') →
  ProductViewSet.update_stock self db' = (r, db').
Proof.
  intros Hrun.
  destruct (update_stock_effect _ _ _ _ Hrun)
    as [[-> _]|(product & Hobj & Hsome & -> & ->)]; [done|].
  apply product_get_object_Return in Hobj as (Hpk & Hp & Hcat).
  set (row := {| product_category := product_category (fields product);
                 product_stock := requested_stock self |}).
  rewrite (update_stock_run self _ (Instance (pk product) row)).
  - destruct (requested_stock self); try done; simpl; by rewrite insert_insert_eq.
  - apply product_get_object_Return. simpl. by rewrite lookup_insert_eq.
Qed.

Lemma update_stock_idempotent_witness :
  let self := Sample.detail Sample.alice 1 {[ "stock" := VInt 0 ]} in
  ∃ db',
    ProductViewSet.update_stock self Sample.db = (Return (Success "stock updated"), db')
    ∧ ProductViewSet.update_stock self db' = (Return (Success "stock updated"), db').
Proof.
  intros self. eexists.
  assert (Hrun : ∀ db', ProductViewSet.update_stock self Sample.db
                        = (Return (Success "stock updated"), db') →
                        ProductViewSet.update_stock self db'
                        = (Return (Success "stock updated"), db'))
    by (intros db'; apply update_stock_idempotent).
  split; [|apply Hrun]; vm_compute; reflexivity.
Defined.

(** X12. The last stock update wins: when a request with a present stock
    value follows any other stock update addressed the same way (same
    detail key, same query), the outcome and the database are those of the
    later request alone. *)
Theorem update_stock_last_write_wins (self1 self2 : View) (db db1 : DB)
    (r1 : outcome Response) :
  kwargs self1 = kwargs self2 →
  query_params (request self1) = query_params (request self2) →
  requested_stock self2 ≠ VNone →
  ProductViewSet.update_stock self1 db = (r1, db1) →
  ProductViewSet.update_stock self2 db1 = ProductViewSet.update_stock self2 db.
Proof.
  intros Hkw Hq Hsome Hrun.
  destruct (update_stock_effect _ _ _ _ Hrun)
    as [[-> _]|(product & Hobj & _ & _ & ->)]; [done|].
  apply product_get_object_Return in Hobj as (Hpk & Hp & Hcat).
  set (row := {| product_category := product_category (fields product);
                 product_stock := requested_stock self1 |}).
  rewrite (update_stock_run self2 db product).
  - rewrite (update_stock_run self2 _ (Instance (pk product) row)).
    + destruct (requested_stock self2); try done; simpl; by rewrite insert_insert_eq.
    + apply product_get_object_Return. simpl.
      rewrite lookup_insert_eq, <- Hkw, <- Hq. done.
  - apply product_get_object_Return. by rewrite <- Hkw, <- Hq.
Qed.

Lemma update_stock_last_write_wins_witness :
  let self1 := Sample.detail Sample.alice 1 {[ "stock" := VInt 10 ]} in
  let self2 := Sample.detail Sample.bob 1 {[ "stock" := VInt 2 ]} in
  ∃ r1 db1,
    ProductViewSet.update_stock self1 Sample.db = (r1, db1)
    ∧ ProductViewSet.update_stock self2 db1
      = ProductViewSet.update_stock self2 Sample.db.
Proof.
  intros self1 self2.
  destruct (ProductViewSet.update_stock self1 Sample.db) as [r1 db1] eqn:Hrun.
  exists r1, db1. split; [reflexivity|].
  apply (update_stock_last_write_wins self1 self2 Sample.db db1 r1);
    [reflexivity|reflexivity|discriminate|exact Hrun].
Defined.

(** The stock update reads and writes the products table only; the status
    update reads and writes the orders table only. *)
Lemma update_stock_other_tables (self : View) (db db' : DB) (r : outcome Response)
    (o : gmap Z Order) (i : gmap Z OrderItem) :
  ProductViewSet.update_stock self db = (r, db') →
  ProductViewSet.update_stock self
    {| products := products db; orders := o; order_items := i |}
  = (r, {| products := products db'; orders := o; order_items := i |})
  ∧ orders db' = orders db ∧ order_items db' = order_items db.
Proof.
  unfold ProductViewSet.update_stock, ProductViewSet.get_object,
    ProductViewSet.get_queryset, get_object_from, bind, all_products, ret, raise,
    save_product.
  simpl.
  destruct (query_params (request self) !! "category") as [c|];
    destruct (kwargs self !! "pk") as [k|]; simpl;
    try (intros [= <- <-]; done).
  - destruct (filter _ (products db) !! k); simpl; [|intros [= <- <-]; done].
    destruct (negb _); simpl; intros [= <- <-]; done.
  - destruct (products db !! k); simpl; [|intros [= <- <-]; done].
    destruct (negb _); simpl; intros [= <- <-]; done.
Qed.

Lemma update_status_other_tables (choices : list (string * string)) (self : View)
    (db db' : DB) (r : outcome Response) (p : gmap Z Product) (i : gmap Z OrderItem) :
  OrderViewSet.update_status choices self db = (r, db') →
  OrderViewSet.update_status choices self
    {| products := p; orders := orders db; order_items := i |}
  = (r, {| products := p; orders := orders db'; order_items := i |})
  ∧ products db' = products db ∧ order_items db' = order_items db.
Proof.
  unfold OrderViewSet.update_status, OrderViewSet.get_object,
    OrderViewSet.get_queryset, get_object_from, bind, all_orders, ret, raise, lift,
    save_order.
  destruct (is_staff (user (request self))); simpl;
    destruct (kwargs self !! "pk") as [k|]; simpl;
    try (intros [= <- <-]; done).
  - destruct (orders db !! k); simpl; [|intros [= <- <-]; done].
    destruct (OrderViewSet.status_accepted _ _) as [[]|]; simpl; intros [= <- <-]; done.
  - destruct (filter _ (orders db) !! k); simpl; [|intros [= <- <-]; done].
    destruct (OrderViewSet.status_accepted _ _) as [[]|]; simpl; intros [= <- <-]; done.
Qed.

(** X13. A stock update and a status update do not interfere: run in
    either order from the same database, each gives the same outcome and
    the final database is the same. *)
Theorem stock_and_status_updates_commute (choices : list (string * string))
    (selfp selfo : View) (db db1 db2 : DB) (rp ro : outcome Response) :
  ProductViewSet.update_stock selfp db = (rp, db1) →
  OrderViewSet.update_status choices selfo db1 = (ro, db2) →
  ∃ db1',
    OrderViewSet.update_status choices selfo db = (ro, db1')
    ∧ ProductViewSet.update_stock selfp db1' = (rp, db2).
Proof.
  intros Hstock Hstatus.
  destruct (update_stock_other_tables selfp db db1 rp (orders db2) (order_items db)
              Hstock) as (Hstock' & Ho1 & Hi1).
  destruct (update_status_other_tables choices selfo db1 db2 ro (products db)
              (order_items db) Hstatus) as (Hstatus' & Hp2 & Hi2).
  exists {| products := products db; orders := orders db2;
            order_items := order_items db |}.
  split.
  - rewrite Ho1 in Hstatus'. by destruct db.
  - rewrite Hstock'. f_equal. destruct db2; simpl in *. congruence.
Qed.

Lemma stock_and_status_updates_commute_witness :
  let selfp := Sample.detail Sample.bob 1 {[ "stock" := VInt 3 ]} in
  let selfo := Sample.detail Sample.bob 8 {[ "status" := VStr "cancelled" ]} in
  ∃ db1 db2 db1',
    ProductViewSet.update_stock selfp Sample.db = (Return (Success "stock updated"), db1)
    ∧ OrderViewSet.update_status Sample.STATUS_CHOICES selfo db1
      = (Return (Success "order status updated"), db2)
    ∧ OrderViewSet.update_status Sample.STATUS_CHOICES selfo Sample.db
      = (Return (Success "order status updated"), db1')
    ∧ ProductViewSet.update_stock selfp db1' = (Return (Success "stock updated"), db2).
Proof.
  intros selfp selfo.
  destruct (ProductViewSet.update_stock selfp Sample.db) as [rp db1] eqn:Hstock.
  destruct (OrderViewSet.update_status Sample.STATUS_CHOICES selfo db1)
    as [ro db2] eqn:Hstatus.
  destruct (stock_and_status_updates_commute _ _ _ _ _ _ _ _ Hstock Hstatus)
    as (db1' & Hstatus' & Hstock').
  assert (Hrp : rp = Return (Success "stock updated"))
    by (vm_compute in Hstock; vm_compute; congruence).
  assert (Hro : ro = Return (Success "order status updated")).
  { destruct (update_stock_other_tables _ _ _ _ (orders Sample.db)
                (order_items Sample.db) Hstock) as (_ & Ho & Hi).
    destruct (update_status_other_tables _ _ _ _ _ (products Sample.db)
                (order_items Sample.db) Hstatus) as (Hrun & _ & _).
    rewrite Ho in Hrun. vm_compute in Hrun. vm_compute. congruence. }
  subst rp ro. exists db1, db2, db1'. done.
Defined.

(** X14. The status update keeps the orders table well-formed: if every
    stored order has a configured, non-empty status before the call, so has
    every stored order after it, whatever the request. *)
Theorem update_status_preserves_valid_statuses (choices : list (string * string))
    (self : View) (db db' : DB) (r : outcome Response) :
  (∀ k o, orders db !! k = Some o → valid_status choices (order_status o)) →
  OrderViewSet.update_status choices self db = (r, db') →
  ∀ k o, orders db' !! k = Some o → valid_status choices (order_status o).
Proof.
  intros Hinv Hrun.
  destruct (update_status_effect _ _ _ _ _ Hrun)
    as [[-> _]|(order & _ & Hvalid & _ & ->)]; [done|].
  intros k o. simpl. rewrite lookup_insert.
  destruct (decide (pk order = k)); [|by apply Hinv].
  by intros [= <-].
Qed.

Lemma sample_statuses_valid (k : Z) (o : Order) :
  orders Sample.db !! k = Some o →
  valid_status Sample.STATUS_CHOICES (order_status o).
Proof.
  unfold Sample.db. simpl. intros Ho.
  apply lookup_insert_Some in Ho as [[_ <-]|[_ Ho]].
  - exists "delivered". split; [done|]. split; [done|].
    simpl. rewrite !elem_of_cons. tauto.
  - apply lookup_singleton_Some in Ho as [_ <-].
    exists "pending". split; [done|]. split; [done|].
    simpl. rewrite !elem_of_cons. tauto.
Qed.

Lemma update_status_preserves_valid_statuses_witness :
  ∃ db',
    OrderViewSet.update_status Sample.STATUS_CHOICES
      (Sample.detail Sample.carol 8 {[ "status" := VStr "shipped" ]}) Sample.db
    = (Return (Success "order status updated"), db')
    ∧ ∀ k o, orders db' !! k = Some o →
             valid_status Sample.STATUS_CHOICES (order_status o).
Proof.
  eexists. split; [vm_compute; reflexivity|].
  apply (update_status_preserves_valid_statuses Sample.STATUS_CHOICES
           (Sample.detail Sample.carol 8 {[ "status" := VStr "shipped" ]})
           Sample.db _ (Return (Success "order status updated"))
           sample_statuses_valid).
  vm_compute; reflexivity.
Defined.

(** X15. Only the set of configured status values matters to the status
    update: two configurations with the same values, in whatever order,
    with whatever labels or repetitions, give the same outcome and database
    on every request. *)
Theorem update_status_same_for_equal_status_sets (choices1 choices2 : list (string * string))
    (self : View) (db : DB) :
  (∀ s, s ∈ choices1.*1 ↔ s ∈ choices2.*1) →
  OrderViewSet.update_status choices1 self db
  = OrderViewSet.update_status choices2 self db.
Proof.
  intros Hsame.
  assert (Hacc : ∀ v, OrderViewSet.status_accepted choices1 v
                      = OrderViewSet.status_accepted choices2 v).
  { intros v. unfold OrderViewSet.status_accepted.
    destruct (truthy v); [|done]. destruct v; simpl; try done.
    f_equal. apply bool_decide_ext. by rewrite !py_dict_lookup_is_Some. }
  destruct (update_status_cases choices1 self db) as [[order Hobj]|(e & Hobj & ->)].
  - by rewrite !(update_status_run _ self db order Hobj), Hacc.
  - unfold OrderViewSet.update_status, bind. by rewrite Hobj.
Qed.

Lemma update_status_same_for_equal_status_sets_witness :
  let relabelled :=
    [("cancelled", "X"); ("delivered", "D"); ("shipped", "S"); ("processing", "P");
     ("pending", "Open"); ("pending", "Waiting")] in
  let self := Sample.detail Sample.alice 7 {[ "status" := VStr "pending" ]} in
  OrderViewSet.update_status Sample.STATUS_CHOICES self Sample.db
  = OrderViewSet.update_status relabelled self Sample.db.
Proof.
  intros relabelled self.
  apply (update_status_same_for_equal_status_sets Sample.STATUS_CHOICES relabelled
           self Sample.db).
  intros s. unfold relabelled, Sample.STATUS_CHOICES. simpl.
  rewrite !elem_of_cons, !elem_of_nil. tauto.
Defined.

(** ** Isolation between users *)

(** X16. Two users who are not staff and have different keys never see a
    common order: their orders querysets are disjoint. *)
Theorem orders_of_distinct_users_disjoint (self1 self2 : View) (db : DB)
    (qs1 qs2 : gmap Z Order) :
  is_staff (user (request self1)) = false →
  is_staff (user (request self2)) = false →
  user_pk (user (request self1)) ≠ user_pk (user (request self2)) →
  OrderViewSet.get_queryset self1 db = (Return qs1, db) →
  OrderViewSet.get_queryset self2 db = (Return qs2, db) →
  qs1 ##ₘ qs2.
Proof.
  unfold OrderViewSet.get_queryset, bind, all_orders, ret.
  intros -> -> Hne [= <-] [= <-].
  apply map_disjoint_spec. intros k o1 o2 H1 H2.
  apply map_lookup_filter_Some in H1 as [H1 Hu1].
  apply map_lookup_filter_Some in H2 as [H2 Hu2].
  simpl in *. congruence.
Qed.

Lemma orders_of_distinct_users_disjoint_witness :
  ∃ qs1 qs2 : gmap Z Order,
    OrderViewSet.get_queryset (Sample.listing Sample.alice None) Sample.db
      = (Return qs1, Sample.db)
    ∧ OrderViewSet.get_queryset (Sample.listing Sample.bob None) Sample.db
      = (Return qs2, Sample.db)
    ∧ qs1 ##ₘ qs2.
Proof.
  do 2 eexists.
  split; [vm_compute; reflexivity|].
  split; [vm_compute; reflexivity|].
  eapply (orders_of_distinct_users_disjoint (Sample.listing Sample.alice None)
            (Sample.listing Sample.bob None) Sample.db);
    [reflexivity|reflexivity|discriminate|vm_compute; reflexivity|vm_compute; reflexivity].
Defined.

(** ** Where the status update raises *)

Lemma order_get_object_Raise (self : View) (db : DB) (e : exn) :
  OrderViewSet.get_object self db = (Raise e, db) →
  e = AssertionError ∨ e = Http404.
Proof.
  unfold OrderViewSet.get_object, OrderViewSet.get_queryset, bind, all_orders, ret.
  destruct (is_staff (user (request self))); simpl; rewrite get_object_from_Raise;
    intros [[-> _]|[-> _]]; auto.
Qed.

(** X17. The status update raises [TypeError] exactly when the lookup
    resolved an order and the requested status is a non-empty list or dict.
    An empty list or dict, being false, is answered like any other invalid
    status. *)
Theorem update_status_type_error_iff (choices : list (string * string)) (self : View)
    (db : DB) :
  (∃ msg, OrderViewSet.update_status choices self db = (Raise (TypeError msg), db))
  ↔ (∃ order, OrderViewSet.get_object self db = (Return order, db))
    ∧ hashable (requested_status self) = false
    ∧ truthy (requested_status self) = true.
Proof.
  destruct (update_status_cases choices self db) as [[order Hobj]|(e & Hobj & ->)].
  - rewrite (update_status_run choices self db order Hobj).
    unfold OrderViewSet.status_accepted. split.
    + intros [msg Hrun]. split; [by exists order|].
      destruct (truthy (requested_status self)); [|discriminate].
      destruct (requested_status self); simpl in *; try discriminate; try done.
      by destruct (bool_decide _).
    + intros (_ & Hhash & ->).
      destruct (requested_status self); simpl in *; try discriminate; by eexists.
  - split.
    + intros [msg [= ->]]. by destruct (order_get_object_Raise _ _ _ Hobj).
    + intros ([order Hobj'] & _). congruence.
Qed.

Lemma update_status_type_error_iff_witness :
  let self := Sample.detail Sample.alice 7 {[ "status" := VList [VInt 1; VInt 2] ]} in
  (∃ msg, OrderViewSet.update_status Sample.STATUS_CHOICES self Sample.db
          = (Raise (TypeError msg), Sample.db))
  ∧ OrderViewSet.update_status Sample.STATUS_CHOICES
      (Sample.detail Sample.alice 7 {[ "status" := VList [] ]}) Sample.db
    = (Return (InvalidRequest "invalid status"), Sample.db).
Proof.
  intros self. split; [|vm_compute; reflexivity].
  apply (update_status_type_error_iff Sample.STATUS_CHOICES self Sample.db).
  split; [|split; reflexivity].
  exists (Instance 7 Sample.order7). vm_compute; reflexivity.
Defined.

(** ** Order item lookups *)

(** X4. A detail lookup of an order item resolves exactly when the item
    exists and the request is nested under the item's own order. Without an
    order scope no item resolves: the lookup answers [Http404] for every
    key, existing items included. *)
Theorem order_item_lookup_needs_scope (self : View) (db : DB) :
  (∀ it, OrderItemViewSet.get_object self db = (Return it, db)
         ↔ kwargs self !! "pk" = Some (pk it)
           ∧ order_items db !! pk it = Some (fields it)
           ∧ kwargs self !! "order_pk" = Some (item_order_id (fields it)))
  ∧ (kwargs self !! "order_pk" = None →
     ∀ k, kwargs self !! "pk" = Some k →
          OrderItemViewSet.get_object self db = (Raise Http404, db)).
Proof.
  unfold OrderItemViewSet.get_object, OrderItemViewSet.get_queryset, bind,
    all_order_items, ret.
  destruct (kwargs self !! "order_pk") as [i|]; simpl; split.
  - intros it. rewrite get_object_from_Return, map_lookup_filter_Some. simpl.
    split; [intros (? & ? & ->)|intros (? & ? & [= ->])]; done.
  - discriminate.
  - intros it. rewrite get_object_from_Return, lookup_empty.
    split; [intros (_ & ?)|intros (_ & _ & ?)]; discriminate.
  - intros _ k Hk. apply get_object_from_Raise. right. split; [done|].
    exists k. by rewrite lookup_empty.
Qed.

Lemma order_item_lookup_needs_scope_witness :
  order_items Sample.db !! 1%Z = Some Sample.item1
  ∧ OrderItemViewSet.get_object (Sample.detail Sample.alice 1 ∅) Sample.db
    = (Raise Http404, Sample.db)
  ∧ OrderItemViewSet.get_object (Sample.nested_detail Sample.alice 7 1) Sample.db
    = (Return (Instance 1 Sample.item1), Sample.db).
Proof.
  split; [vm_compute; reflexivity|]. split.
  - destruct (order_item_lookup_needs_scope (Sample.detail Sample.alice 1 ∅) Sample.db)
      as [_ Hnone].
    apply (Hnone ltac:(vm_compute; reflexivity) 1%Z). vm_compute; reflexivity.
  - destruct (order_item_lookup_needs_scope (Sample.nested_detail Sample.alice 7 1)
                Sample.db) as [Hiff _].
    apply (Hiff (Instance 1 Sample.item1)).
    repeat split; vm_compute; reflexivity.
Defined.
